(** * books/modules/notion.py: the Notion client of the book toolbox

    A shallow embedding of the two functions of [notion.py],
    [post_book_from_goodreads] and [get_currently_reading], and of the
    module's load-time configuration, followed by the properties of the
    specification that concern them.

    Python values are a closed type [value]; exceptions are a type [fault];
    a function body runs in a state-and-error monad [py] over a [World] that
    holds the module globals, the objects that arguments refer to, and the
    log of HTTP requests sent so far. *)

From Stdlib Require Import ZArith String Ascii List.
From stdpp Require Import base option list strings gmap.

#[local] Set Warnings "-register-all".
Local Open Scope string_scope.
Local Open Scope list_scope.
Local Open Scope Z_scope.

(** ** Python values *)

(** The values the module handles: what [json.loads] produces and what
    [json.dumps] accepts.  A [VDict] keeps its items in insertion order, as
    Python dicts do; its keys are strings. *)
Inductive value : Type :=
| VNone
| VBool (b : bool)
| VInt (n : Z)
| VFloat (literal : string)
| VStr (s : string)
| VList (items : list value)
| VDict (items : list (string * value)).

(** The exceptions that can surface from the module. *)
Inductive fault : Type :=
| KeyError (key : value)
| IndexError
| TypeError
| JSONDecodeError
| RequestException (what : string).

Definition result (A : Type) : Type := fault + A.

Definition ok {A} (a : A) : result A := inr a.
Definition raise {A} (f : fault) : result A := inl f.

Definition result_bind {A B} (r : result A) (k : A -> result B) : result B :=
  match r with
  | inl f => inl f
  | inr a => k a
  end.

Notation "'let?' x ':=' r 'in' k" := (result_bind r (fun x => k))
  (at level 10, x name, r at level 100, k at level 200).

(** Lookup of a key among the items of a dict. *)
Fixpoint dict_get (k : string) (items : list (string * value)) : option value :=
  match items with
  | [] => None
  | (k', v) :: rest => if String.eqb k k' then Some v else dict_get k rest
  end.

Definition dict_keys (items : list (string * value)) : list string :=
  map fst items.

(** [seq[i]] on a Python sequence: negative indices count from the end. *)
Definition seq_index {A} (l : list A) (i : Z) : option A :=
  let n := Z.of_nat (length l) in
  if 0 <=? i then nth_error l (Z.to_nat i)
  else if - n <=? i then nth_error l (Z.to_nat (n + i))
  else None.

Definition chars (s : string) : list value :=
  map (fun c => VStr (String c EmptyString)) (list_ascii_of_string s).

(** [v[k]] for a string key [k]. *)
Definition getitem_key (v : value) (k : string) : result value :=
  match v with
  | VDict items =>
      match dict_get k items with
      | Some x => ok x
      | None => raise (KeyError (VStr k))
      end
  | _ => raise TypeError
  end.

(** [v[i]] for an integer index [i]. *)
Definition getitem_index (v : value) (i : Z) : result value :=
  match v with
  | VList items =>
      match seq_index items i with
      | Some x => ok x
      | None => raise IndexError
      end
  | VStr s =>
      match seq_index (chars s) i with
      | Some x => ok x
      | None => raise IndexError
      end
  | VDict _ => raise (KeyError (VInt i))
  | _ => raise TypeError
  end.

(** What [for x in v] iterates over. *)
Definition iterate (v : value) : result (list value) :=
  match v with
  | VList items => ok items
  | VDict items => ok (map VStr (dict_keys items))
  | VStr s => ok (chars s)
  | _ => raise TypeError
  end.

(** A list comprehension [[f x for x in l]]: elements are evaluated in
    order and the first fault ends the evaluation. *)
Fixpoint comprehension {A B} (f : A -> result B) (l : list A) : result (list B) :=
  match l with
  | [] => ok []
  | x :: rest =>
      let? y := f x in
      let? ys := comprehension f rest in
      ok (y :: ys)
  end.

(** A step of an access path such as [properties.Name.title[0].plain_text]. *)
Inductive step : Type :=
| Key (k : string)
| Index (i : Z).

Definition getitem (v : value) (s : step) : result value :=
  match s with
  | Key k => getitem_key v k
  | Index i => getitem_index v i
  end.

Fixpoint path (v : value) (p : list step) : result value :=
  match p with
  | [] => ok v
  | s :: rest => let? x := getitem v s in path x rest
  end.

(** ** Module load: configuration from the environment *)

(** [load_dotenv()]: the variables of the [.env] file are added to
    [os.environ]; a variable already set keeps its value. *)
Definition load_dotenv (dotenv environ : gmap string string) : gmap string string :=
  environ ∪ dotenv.

(** [os.environ[name]]. *)
Definition environ_getitem (environ : gmap string string) (name : string) : result string :=
  match environ !! name with
  | Some v => ok v
  | None => raise (KeyError (VStr name))
  end.

(** The module globals once the module body has run. *)
Record Module : Type := {
  NOTION_API_KEY : string;
  NOTION_DATABASE_ID : string
}.

(** The module body, lines 10 to 12. *)
Definition import_notion (dotenv environ : gmap string string) : result Module :=
  let environ := load_dotenv dotenv environ in
  let? api_key := environ_getitem environ "NOTION_API_KEY" in
  let? database_id := environ_getitem environ "NOTION_DATABASE_ID" in
  ok {| NOTION_API_KEY := api_key; NOTION_DATABASE_ID := database_id |}.

(** ** The world a call runs in *)

(** Modelled from the spec: the class [GoodReadBook] of [.utils], which is
    not among the sources.  The spec's BookRecord has name and authors
    (text), isbn and num_pages (integer or absent), image and url (URL
    strings). *)
Record GoodReadBook : Type := {
  name : string;
  authors : string;
  isbn : option Z;
  num_pages : option Z;
  image : string;
  url : string
}.

Record Request : Type := {
  method : string;
  endpoint : string;
  headers : list (string * string);
  data : string
}.

Record Response : Type := {
  status_code : Z;
  text : string
}.

(** Arguments are references to objects. *)
Definition ref : Type := nat.

Record World : Type := {
  globals : Module;
  objects : ref -> GoodReadBook;
  sent : list Request
}.

(** State and error: a fault leaves the world as it was when raised. *)
Definition py (A : Type) : Type := World -> result A * World.

Definition ret {A} (a : A) : py A := fun w => (ok a, w).

Definition bind {A B} (m : py A) (k : A -> py B) : py B :=
  fun w =>
    match m w with
    | (inl f, w') => (inl f, w')
    | (inr a, w') => k a w'
    end.

Definition lift {A} (r : result A) : py A := fun w => (r, w).

Notation "'let!' x ':=' m 'in' k" := (bind m (fun x => k))
  (at level 10, x name, m at level 100, k at level 200).

(** Reading a module global and an attribute of an object. *)
Definition global {A} (g : Module -> A) : py A := fun w => (ok (g (globals w)), w).

Definition getattr {A} (r : ref) (field : GoodReadBook -> A) : py A :=
  fun w => (ok (field (objects w r)), w).

Definition log_request (q : Request) (w : World) : World :=
  {| globals := globals w; objects := objects w; sent := sent w ++ [q] |}.

(** An optional integer as a Python value. *)
Definition int_or_None (o : option Z) : value :=
  match o with
  | Some n => VInt n
  | None => VNone
  end.

(** ** Shapes of a query response *)

(** [t] sits at [properties.Name.title[0].plain_text] of the result [e]. *)
Definition has_title (e t : value) : Prop :=
  exists fields props name_fields run rest,
    e = VDict fields /\
    dict_get "properties" fields = Some (VDict props) /\
    dict_get "Name" props = Some (VDict name_fields) /\
    dict_get "title" name_fields = Some (VList (VDict run :: rest)) /\
    dict_get "plain_text" run = Some t.

(** The Name title list of the result [e] is empty. *)
Definition empty_title (e : value) : Prop :=
  exists fields props name_fields,
    e = VDict fields /\
    dict_get "properties" fields = Some (VDict props) /\
    dict_get "Name" props = Some (VDict name_fields) /\
    dict_get "title" name_fields = Some (VList []).

(** The shape a query response is expected to have: an object whose
    [results] is a list of results that each have a title. *)
Definition expected_shape (response : value) : Prop :=
  exists items results titles,
    response = VDict items /\
    dict_get "results" items = Some (VList results) /\
    Forall2 has_title results titles.

(** ** A program around the module *)

(** A program imports the module and then runs client code against it,
    starting from an empty request log; it ends with the client's outcome
    and the requests sent.  A fault of the module body ends the program
    before any client code runs. *)
Definition program {A} (dotenv environ : gmap string string)
    (objs : ref -> GoodReadBook) (client : py A) : result A * list Request :=
  match import_notion dotenv environ with
  | inl f => (inl f, [])
  | inr m =>
      let (r, w) := client {| globals := m; objects := objs; sent := [] |} in
      (r, sent w)
  end.

Section Client.

(** [json.dumps], [json.loads] (behind [Response.json()]) and the HTTP
    transport behind [requests.request] are the libraries' own. *)
Variable json_dumps : value -> string.
Variable json_loads : string -> option value.
Variable transport : Request -> result Response.

(** [requests.request(method, url, headers=headers, data=data)]. *)
Definition requests_request (m u : string) (h : list (string * string)) (d : string)
  : py Response :=
  fun w =>
    let q := {| method := m; endpoint := u; headers := h; data := d |} in
    (transport q, log_request q w).

(** [response.json()]: the value the body decodes to; a body that is not
    JSON raises the decoder's fault.  The decoder's failures on well-formed
    bodies (the interpreter's limits on nesting depth and on the digits of
    a number) are not modelled. *)
Definition Response_json (r : Response) : result value :=
  match json_loads (text r) with
  | Some v => ok v
  | None => raise JSONDecodeError
  end.

(** The headers dict that both functions build. *)
Definition notion_headers (api_key : string) : list (string * string) :=
  [ ("Content-Type", "application/json");
    ("Notion-Version", "2022-02-22");
    ("Authorization", "Bearer " +:+ api_key) ].

(** The dict literal of lines 24 to 57. *)
Definition page_payload (database_id : string) (book : GoodReadBook) : value :=
  VDict
    [ ("parent", VDict [ ("database_id", VStr database_id) ]);
      ("properties", VDict
        [ ("Cover", VDict
            [ ("type", VStr "files");
              ("files", VList
                [ VDict
                    [ ("name", VStr "Cover");
                      ("type", VStr "external");
                      ("external", VDict [ ("url", VStr (image book)) ]) ] ]) ]);
          ("Status", VDict [ ("type", VStr "select"); ("select", VNone) ]);
          ("End", VDict [ ("type", VStr "date"); ("date", VNone) ]);
          ("Name", VDict
            [ ("type", VStr "title");
              ("title", VList
                [ VDict
                    [ ("type", VStr "text");
                      ("text", VDict [ ("content", VStr (name book)) ]) ] ]) ]);
          ("Num Pages", VDict
            [ ("type", VStr "number");
              ("number", int_or_None (num_pages book)) ]);
          ("ISBN", VDict
            [ ("type", VStr "number");
              ("number", int_or_None (isbn book)) ]);
          ("Author", VDict
            [ ("type", VStr "rich_text");
              ("rich_text", VList
                [ VDict
                    [ ("type", VStr "text");
                      ("text", VDict [ ("content", VStr (authors book)) ]) ] ]) ]);
          ("URL", VDict [ ("type", VStr "url"); ("url", VStr (url book)) ]) ]) ].

(** Adds a book into the Notion database. *)
Definition post_book_from_goodreads (book : ref) (verbose : option bool) : py Response :=
  let endpoint := "https://api.notion.com/v1/pages/" in
  let! api_key := global NOTION_API_KEY in
  let headers := notion_headers api_key in
  let! database_id := global NOTION_DATABASE_ID in
  let! image_ := getattr book image in
  let! name_ := getattr book name in
  let! num_pages_ := getattr book num_pages in
  let! isbn_ := getattr book isbn in
  let! authors_ := getattr book authors in
  let! url_ := getattr book url in
  let data :=
    json_dumps
      (page_payload database_id
         {| name := name_; authors := authors_; isbn := isbn_;
            num_pages := num_pages_; image := image_; url := url_ |}) in
  requests_request "POST" endpoint headers data.

(** The [verbose] parameter defaults to [False]. *)
Definition post_book_from_goodreads_default (book : ref) : py Response :=
  post_book_from_goodreads book (Some false).

(** The element expression of the comprehension of lines 78 to 81. *)
Definition book_title (book : value) : result value :=
  let? properties := getitem_key book "properties" in
  let? name_ := getitem_key properties "Name" in
  let? title := getitem_key name_ "title" in
  let? first := getitem_index title 0 in
  getitem_key first "plain_text".

(** Gets a list of currently reading books. *)
Definition get_currently_reading : py (list value) :=
  let! database_id := global NOTION_DATABASE_ID in
  let endpoint := "https://api.notion.com/v1/databases/" +:+ database_id +:+ "/query" in
  let! api_key := global NOTION_API_KEY in
  let headers := notion_headers api_key in
  let data :=
    json_dumps
      (VDict [ ("filter", VDict
                 [ ("property", VStr "Status");
                   ("select", VDict [ ("equals", VStr "Reading") ]) ]) ]) in
  let! reply := requests_request "POST" endpoint headers data in
  let! response := lift (Response_json reply) in
  let! results := lift (getitem_key response "results") in
  let! books_in := lift (iterate results) in
  let! books := lift (comprehension book_title books_in) in
  ret books.

(** The request that [post_book_from_goodreads] builds in the world [w]
    for the book that [book] refers to. *)
Definition page_request (w : World) (book : ref) : Request :=
  {| method := "POST";
     endpoint := "https://api.notion.com/v1/pages/";
     headers := notion_headers (NOTION_API_KEY (globals w));
     data := json_dumps (page_payload (NOTION_DATABASE_ID (globals w)) (objects w book)) |}.

(** The request that [get_currently_reading] builds in the world [w]. *)
Definition query_request (w : World) : Request :=
  {| method := "POST";
     endpoint := "https://api.notion.com/v1/databases/"
                 +:+ NOTION_DATABASE_ID (globals w) +:+ "/query";
     headers := notion_headers (NOTION_API_KEY (globals w));
     data := json_dumps
               (VDict [ ("filter", VDict
                          [ ("property", VStr "Status");
                            ("select", VDict [ ("equals", VStr "Reading") ]) ]) ]) |}.

(** What lines 74 to 82 make of the transport's response. *)
Definition titles_of_reply (reply : Response) : result (list value) :=
  let? response := Response_json reply in
  let? results := getitem_key response "results" in
  let? books_in := iterate results in
  comprehension book_title books_in.

End Client.

(** ** Test doubles *)

(** A transport that answers every request with the same response, a
    decoder given by a table of bodies, and an encoder that is constant. *)
Definition mock_transport (reply : Response) : Request -> result Response :=
  fun _ => ok reply.

Definition failing_transport (what : string) : Request -> result Response :=
  fun _ => raise (RequestException what).

Definition mock_loads (table : list (string * value)) : string -> option value :=
  fun body => dict_get body table.

Definition mock_dumps : value -> string :=
  fun _ => "{}".

Definition dune : value :=
  VDict [ ("properties", VDict
            [ ("Name", VDict
                [ ("title", VList [ VDict [ ("plain_text", VStr "Dune") ] ]) ]) ]) ].

Definition untitled : value :=
  VDict [ ("properties", VDict [ ("Name", VDict [ ("title", VList []) ]) ]) ].

Definition sample_book : GoodReadBook :=
  {| name := "Dune"; authors := "Frank Herbert"; isbn := None;
     num_pages := Some 412; image := "https://covers.example/dune.jpg";
     url := "https://www.goodreads.com/book/show/44767458" |}.

Definition sample_world : World :=
  {| globals := {| NOTION_API_KEY := "secret"; NOTION_DATABASE_ID := "db1" |};
     objects := fun _ => sample_book;
     sent := [] |}.

(** Bodies of canned responses, with the values they parse to. *)
Definition quoted (s : string) : string :=
  String (ascii_of_nat 34) s +:+ String (ascii_of_nat 34) EmptyString.

Definition results_body (results : string) : string :=
  "{" +:+ quoted "results" +:+ ": " +:+ results +:+ "}".

Definition dune_text : string :=
  "{" +:+ quoted "properties" +:+ ": {" +:+ quoted "Name" +:+ ": {"
  +:+ quoted "title" +:+ ": [{" +:+ quoted "plain_text" +:+ ": "
  +:+ quoted "Dune" +:+ "}]}}}".

Definition untitled_text : string :=
  "{" +:+ quoted "properties" +:+ ": {" +:+ quoted "Name" +:+ ": {"
  +:+ quoted "title" +:+ ": []}}}".

Definition error_text : string :=
  "{" +:+ quoted "object" +:+ ": " +:+ quoted "error" +:+ ", "
  +:+ quoted "status" +:+ ": 401}".

Definition bodies : list (string * value) :=
  [ (results_body ("[" +:+ dune_text +:+ "]"),
     VDict [ ("results", VList [ dune ]) ]);
    (results_body "[]", VDict [ ("results", VList []) ]);
    (results_body ("[" +:+ dune_text +:+ ", " +:+ untitled_text +:+ "]"),
     VDict [ ("results", VList [ dune; untitled ]) ]);
    (results_body ("[{}, " +:+ untitled_text +:+ "]"),
     VDict [ ("results", VList [ VDict []; untitled ]) ]);
    (results_body "{}", VDict [ ("results", VDict []) ]);
    (error_text, VDict [ ("object", VStr "error"); ("status", VInt 401) ]) ].

Definition reply_with (status : Z) (body : string) : Response :=
  {| status_code := status; text := body |}.

(** ** Shapes of the payload and of faults *)

(** A Notion property value: a dict that names its type under [type] and
    holds its content under the key of that name. *)
Definition type_tagged (p : value) : Prop :=
  exists tag content, p = VDict [ ("type", VStr tag); (tag, content) ].

(** The faults that reading one result, or the response around the
    results, can raise by itself. *)
Definition shape_fault (f : fault) : Prop :=
  f = TypeError \/ f = IndexError \/ f = KeyError (VInt 0) \/
  exists k,
    In k [ "results"; "properties"; "Name"; "title"; "plain_text" ] /\
    f = KeyError (VStr k).


(** * Properties *)

Section Facts.

Variable json_dumps : value -> string.
Variable json_loads : string -> option value.
Variable transport : Request -> result Response.

Local Abbreviation post_book_from_goodreads :=
  (post_book_from_goodreads json_dumps transport).
Local Abbreviation post_book_from_goodreads_default :=
  (post_book_from_goodreads_default json_dumps transport).
Local Abbreviation get_currently_reading :=
  (get_currently_reading json_dumps json_loads transport).
Local Abbreviation page_request := (page_request json_dumps).
Local Abbreviation query_request := (query_request json_dumps).
Local Abbreviation titles_of_reply := (titles_of_reply json_loads).
Local Abbreviation Response_json := (Response_json json_loads).

(** ** How the two functions run *)

Lemma post_book_run (w : World) (book : ref) (verbose : option bool) :
  post_book_from_goodreads book verbose w
  = (transport (page_request w book), log_request (page_request w book) w).
Proof. reflexivity. Qed.

Lemma get_currently_reading_run (w : World) :
  get_currently_reading w
  = (let? reply := transport (query_request w) in titles_of_reply reply,
     log_request (query_request w) w).
Proof.
  destruct (transport (query_request w)) as [f | reply] eqn:E;
    unfold query_request in E;
    cbv beta zeta iota delta
      [get_currently_reading bind global lift ret requests_request ok];
    rewrite E; [reflexivity |].
  unfold titles_of_reply. simpl.
  destruct (Response_json reply) as [f | response]; simpl; [reflexivity |].
  destruct (getitem_key response "results") as [f | results]; simpl; [reflexivity |].
  destruct (iterate results) as [f | books_in]; simpl; [reflexivity |].
  destruct (comprehension book_title books_in); reflexivity.
Qed.

(** ** The element expression and the comprehension *)

Lemma has_title_book_title (e t : value) :
  has_title e t <-> book_title e = ok t.
Proof.
  split.
  - intros (fields & props & name_fields & run & rest & -> & Hp & Hn & Ht & Hr).
    unfold book_title. simpl. rewrite Hp. simpl. rewrite Hn. simpl.
    rewrite Ht. simpl. rewrite Hr. reflexivity.
  - unfold book_title, has_title. intros H.
    destruct e as [| | | | | |fields]; try discriminate H. simpl in H.
    destruct (dict_get "properties" fields) as [props|] eqn:Hp; [|discriminate H].
    destruct props as [| | | | | |props]; try discriminate H. simpl in H.
    destruct (dict_get "Name" props) as [nm|] eqn:Hn; [|discriminate H].
    destruct nm as [| | | | | |name_fields]; try discriminate H. simpl in H.
    destruct (dict_get "title" name_fields) as [title|] eqn:Ht; [|discriminate H].
    destruct title as [| | | |s|items|]; try discriminate H.
    + exfalso. simpl in H. unfold getitem_index in H.
      destruct (seq_index (chars s) 0) as [c|] eqn:Hc; [|discriminate H].
      unfold seq_index in Hc. simpl in Hc. unfold chars in Hc.
      destruct (list_ascii_of_string s); simpl in Hc; [discriminate Hc|].
      injection Hc as <-. discriminate H.
    + destruct items as [|first rest]; [discriminate H|].
      change (getitem_index (VList (first :: rest)) 0) with (ok first) in H.
      simpl in H.
      destruct first as [| | | | | |run]; try discriminate H. simpl in H.
      destruct (dict_get "plain_text" run) as [x|] eqn:Hr; [|discriminate H].
      injection H as <-.
      exists fields, props, name_fields, run, rest. auto.
Qed.

Lemma empty_title_book_title (e : value) :
  empty_title e -> book_title e = raise IndexError.
Proof.
  intros (fields & props & name_fields & -> & Hp & Hn & Ht).
  unfold book_title. simpl. rewrite Hp. simpl. rewrite Hn. simpl.
  rewrite Ht. reflexivity.
Qed.

Lemma comprehension_titles (results titles : list value) :
  Forall2 has_title results titles ->
  comprehension book_title results = ok titles.
Proof.
  induction 1 as [|e t results titles He _ IH]; [reflexivity|].
  simpl. apply has_title_book_title in He. rewrite He. simpl.
  rewrite IH. reflexivity.
Qed.

Lemma comprehension_fault {A B} (f : A -> result B) (before after : list A) (x : A)
    (flt : fault) :
  f x = raise flt ->
  exists flt', comprehension f (before ++ x :: after) = raise flt'.
Proof.
  intros Hx. induction before as [|y before IH]; simpl.
  - rewrite Hx. eexists. reflexivity.
  - destruct (f y) as [g|b]; simpl; [eexists; reflexivity|].
    destruct IH as [flt' ->]. eexists. reflexivity.
Qed.

Lemma comprehension_first_fault {A B} (f : A -> result B) (before after : list A)
    (x : A) (flt : fault) :
  Forall (fun y => exists b, f y = ok b) before ->
  f x = raise flt ->
  comprehension f (before ++ x :: after) = raise flt.
Proof.
  intros Hb Hx. induction Hb as [|y before [b Hy] _ IH]; simpl.
  - rewrite Hx. reflexivity.
  - rewrite Hy. simpl. rewrite IH. reflexivity.
Qed.

(** ** Creating a page *)

(** C1.  For every book, [post_book_from_goodreads] sends one request whose
    body is the serialised page payload; the payload's [properties] has
    exactly the eight keys Cover, Status, End, Name, Num Pages, ISBN,
    Author, URL, whatever the fields of the book hold; Name, URL, Cover,
    Author, Num Pages and ISBN carry the book's name, url, image, authors,
    num_pages and isbn at the paths of the Notion schema, and Status.select
    and End.date are None. *)
Theorem post_book_request_body (w : World) (book : ref) (verbose : option bool) :
  let b := objects w book in
  let body := page_payload (NOTION_DATABASE_ID (globals w)) b in
  (exists q,
     sent (snd (post_book_from_goodreads book verbose w)) = sent w ++ [q] /\
     data q = json_dumps body) /\
  (exists props,
     getitem_key body "properties" = ok (VDict props) /\
     dict_keys props
     = ["Cover"; "Status"; "End"; "Name"; "Num Pages"; "ISBN"; "Author"; "URL"]) /\
  path body [Key "properties"; Key "Name"; Key "title"; Index 0; Key "text";
             Key "content"] = ok (VStr (name b)) /\
  path body [Key "properties"; Key "URL"; Key "url"] = ok (VStr (url b)) /\
  path body [Key "properties"; Key "Cover"; Key "files"; Index 0; Key "external";
             Key "url"] = ok (VStr (image b)) /\
  path body [Key "properties"; Key "Author"; Key "rich_text"; Index 0; Key "text";
             Key "content"] = ok (VStr (authors b)) /\
  path body [Key "properties"; Key "Num Pages"; Key "number"]
  = ok (match num_pages b with Some n => VInt n | None => VNone end) /\
  path body [Key "properties"; Key "ISBN"; Key "number"]
  = ok (match isbn b with Some n => VInt n | None => VNone end) /\
  path body [Key "properties"; Key "Status"; Key "select"] = ok VNone /\
  path body [Key "properties"; Key "End"; Key "date"] = ok VNone.
Proof.
  intros b body. split.
  - exists (page_request w book). rewrite post_book_run. split; reflexivity.
  - split; [eexists; split; reflexivity|].
    repeat split; reflexivity.
Qed.

(** C4.  Building the body cannot fail: the outcome of the call is the
    transport's outcome for the request built, so a fault can only be one
    the transport raised; and an isbn or num_pages that is None goes into
    the [number] field as None, an integer as that integer. *)
Theorem post_book_absent_numbers_pass (w : World) (book : ref) (verbose : option bool) :
  let b := objects w book in
  let body := page_payload (NOTION_DATABASE_ID (globals w)) b in
  exists q,
    data q = json_dumps body /\
    fst (post_book_from_goodreads book verbose w) = transport q /\
    (forall f, fst (post_book_from_goodreads book verbose w) = raise f ->
               transport q = raise f) /\
    path body [Key "properties"; Key "ISBN"; Key "number"]
    = ok (match isbn b with Some n => VInt n | None => VNone end) /\
    path body [Key "properties"; Key "Num Pages"; Key "number"]
    = ok (match num_pages b with Some n => VInt n | None => VNone end).
Proof.
  intros b body. exists (page_request w book). rewrite post_book_run.
  repeat split; auto.
Qed.

(** C5.  The call sends its request once and its outcome is what the
    transport produced for it: a response, of any status, is returned as
    it is, and a fault of the transport is raised as it is. *)
Theorem post_book_returns_transport_outcome (w : World) (book : ref)
    (verbose : option bool) :
  let q := page_request w book in
  let out := post_book_from_goodreads book verbose w in
  fst out = transport q /\
  sent (snd out) = sent w ++ [q] /\
  (forall reply, transport q = ok reply -> fst out = ok reply) /\
  (forall f, transport q = raise f -> fst out = raise f).
Proof.
  intros q out. unfold out. rewrite post_book_run. fold q.
  repeat split; auto.
Qed.

(** C9.  The value of [verbose] does not matter: any two values, and the
    default, give the same outcome and the same world, hence the same
    request sent. *)
Theorem post_book_verbose_irrelevant (w : World) (book : ref)
    (verbose verbose' : option bool) :
  post_book_from_goodreads book verbose w = post_book_from_goodreads book verbose' w /\
  post_book_from_goodreads_default book w = post_book_from_goodreads book verbose w.
Proof. split; reflexivity. Qed.

(** C10.  A call leaves the module globals and every object as they were,
    in particular each field of the book passed to it. *)
Theorem post_book_frame (w : World) (book : ref) (verbose : option bool) :
  let w' := snd (post_book_from_goodreads book verbose w) in
  NOTION_API_KEY (globals w') = NOTION_API_KEY (globals w) /\
  NOTION_DATABASE_ID (globals w') = NOTION_DATABASE_ID (globals w) /\
  objects w' = objects w /\
  name (objects w' book) = name (objects w book) /\
  authors (objects w' book) = authors (objects w book) /\
  isbn (objects w' book) = isbn (objects w book) /\
  num_pages (objects w' book) = num_pages (objects w book) /\
  image (objects w' book) = image (objects w book) /\
  url (objects w' book) = url (objects w book).
Proof.
  intros w'. unfold w'. rewrite post_book_run. repeat split.
Qed.

(** C7.  Each operation sends one POST request: page creation to the
    pages endpoint, the reading list to the query endpoint of the
    configured database; both with the three headers Content-Type,
    Notion-Version and Authorization, and the reading list with the
    constant filter body. *)
Theorem operations_send_post_requests (w : World) (book : ref) (verbose : option bool) :
  sent (snd (post_book_from_goodreads book verbose w))
  = sent w ++
    [ {| method := "POST";
         endpoint := "https://api.notion.com/v1/pages/";
         headers :=
           [ ("Content-Type", "application/json");
             ("Notion-Version", "2022-02-22");
             ("Authorization", "Bearer " +:+ NOTION_API_KEY (globals w)) ];
         data := json_dumps
                   (page_payload (NOTION_DATABASE_ID (globals w)) (objects w book)) |} ]
  /\
  sent (snd (get_currently_reading w))
  = sent w ++
    [ {| method := "POST";
         endpoint := "https://api.notion.com/v1/databases/"
                     +:+ NOTION_DATABASE_ID (globals w) +:+ "/query";
         headers :=
           [ ("Content-Type", "application/json");
             ("Notion-Version", "2022-02-22");
             ("Authorization", "Bearer " +:+ NOTION_API_KEY (globals w)) ];
         data := json_dumps
                   (VDict [ ("filter", VDict
                              [ ("property", VStr "Status");
                                ("select", VDict [ ("equals", VStr "Reading") ]) ]) ]) |} ].
Proof.
  split.
  - rewrite post_book_run. reflexivity.
  - rewrite get_currently_reading_run. reflexivity.
Qed.

(** ** The reading list *)

(** C2.  When the response parses to an object whose [results] is a list
    of results that each have a title, the call returns these titles, in
    the order of the results. *)
Theorem reading_list_titles (w : World) (reply : Response)
    (items : list (string * value)) (results titles : list value) :
  transport (query_request w) = ok reply ->
  json_loads (text reply) = Some (VDict items) ->
  dict_get "results" items = Some (VList results) ->
  Forall2 has_title results titles ->
  fst (get_currently_reading w) = ok titles.
Proof.
  intros Ht Hj Hr Hs. rewrite get_currently_reading_run. simpl.
  rewrite Ht. simpl. unfold titles_of_reply, Response_json. rewrite Hj. simpl.
  rewrite Hr. simpl. apply comprehension_titles, Hs.
Qed.

(** C3, as amended.  When a result has an empty Name title list the call
    raises; it does not skip the result nor put a default in its place.
    The fault is IndexError when every result before it has a title;
    otherwise it is the fault of reading the first earlier result that has
    none. *)
Theorem reading_list_empty_title_raises (w : World) (reply : Response)
    (items : list (string * value)) (before after : list value) (e : value) :
  transport (query_request w) = ok reply ->
  json_loads (text reply) = Some (VDict items) ->
  dict_get "results" items = Some (VList (before ++ e :: after)) ->
  empty_title e ->
  (exists f, fst (get_currently_reading w) = raise f) /\
  (Forall (fun x => exists t, has_title x t) before ->
   fst (get_currently_reading w) = raise IndexError) /\
  (forall (titled : list value) (x : value) (rest : list value) (f : fault),
     before = titled ++ x :: rest ->
     Forall (fun y => exists t, has_title y t) titled ->
     book_title x = raise f ->
     fst (get_currently_reading w) = raise f).
Proof.
  intros Ht Hj Hr He. rewrite get_currently_reading_run. simpl.
  rewrite Ht. simpl. unfold titles_of_reply, Response_json. rewrite Hj. simpl.
  rewrite Hr. simpl. apply empty_title_book_title in He. split; [|split].
  - apply comprehension_fault with (flt := IndexError), He.
  - intros Hb. apply comprehension_first_fault; [|exact He].
    eapply Forall_impl; [exact Hb|]. intros x [t Hx]. exists t.
    apply has_title_book_title, Hx.
  - intros titled x rest f -> Hb Hx. rewrite <- app_assoc. simpl.
    apply comprehension_first_fault; [|exact Hx].
    eapply Forall_impl; [exact Hb|]. intros y [t Hy]. exists t.
    apply has_title_book_title, Hy.
Qed.

End Facts.

(** ** The comprehension, element by element *)

Lemma comprehension_ok_inv {A B} (f : A -> result B) (l : list A) (ys : list B) :
  comprehension f l = ok ys -> Forall2 (fun x y => f x = ok y) l ys.
Proof.
  revert ys. induction l as [|x l IH]; simpl; intros ys H.
  - injection H as <-. constructor.
  - destruct (f x) as [g|y] eqn:Hx; [discriminate H|]. simpl in H.
    destruct (comprehension f l) as [g|ys'] eqn:Hl; [discriminate H|].
    injection H as <-. constructor; [exact Hx | apply IH; reflexivity].
Qed.

Lemma comprehension_raise_inv {A B} (f : A -> result B) (l : list A) (flt : fault) :
  comprehension f l = raise flt -> exists x, In x l /\ f x = raise flt.
Proof.
  induction l as [|x l IH]; simpl; intros H; [discriminate H|].
  destruct (f x) as [g|y] eqn:Hx.
  - injection H as ->. exists x. split; [left; reflexivity | exact Hx].
  - simpl in H. destruct (comprehension f l) as [g|ys] eqn:Hl; [|discriminate H].
    injection H as ->. destruct (IH eq_refl) as (x' & Hin & Hx').
    exists x'. split; [right; exact Hin | exact Hx'].
Qed.

Lemma getitem_key_fault (v : value) (k : string) (f : fault) :
  getitem_key v k = raise f -> f = TypeError \/ f = KeyError (VStr k).
Proof.
  destruct v as [| | | | | |items]; simpl; intros H;
    try (injection H as <-; left; reflexivity).
  destruct (dict_get k items); [discriminate H|].
  injection H as <-. right; reflexivity.
Qed.

Lemma getitem_index_fault (v : value) (i : Z) (f : fault) :
  getitem_index v i = raise f ->
  f = TypeError \/ f = IndexError \/ f = KeyError (VInt i).
Proof.
  destruct v as [| | | |s|items|items]; simpl; intros H;
    try (injection H as <-; left; reflexivity).
  - destruct (seq_index (chars s) i); [discriminate H|].
    injection H as <-. right; left; reflexivity.
  - destruct (seq_index items i); [discriminate H|].
    injection H as <-. right; left; reflexivity.
  - injection H as <-. right; right; reflexivity.
Qed.

Lemma key_fault_shape (k : string) (f : fault) :
  In k [ "results"; "properties"; "Name"; "title"; "plain_text" ] ->
  f = TypeError \/ f = KeyError (VStr k) -> shape_fault f.
Proof.
  intros Hk [-> | ->]; [left; reflexivity|].
  right; right; right. exists k. split; [exact Hk | reflexivity].
Qed.

Lemma book_title_fault (e : value) (f : fault) :
  book_title e = raise f -> shape_fault f.
Proof.
  unfold book_title. intros H.
  destruct (getitem_key e "properties") as [g|props] eqn:H1; simpl in H.
  { injection H as ->. apply getitem_key_fault in H1.
    eapply key_fault_shape; [|exact H1]. simpl; tauto. }
  destruct (getitem_key props "Name") as [g|nm] eqn:H2; simpl in H.
  { injection H as ->. apply getitem_key_fault in H2.
    eapply key_fault_shape; [|exact H2]. simpl; tauto. }
  destruct (getitem_key nm "title") as [g|title] eqn:H3; simpl in H.
  { injection H as ->. apply getitem_key_fault in H3.
    eapply key_fault_shape; [|exact H3]. simpl; tauto. }
  destruct (getitem_index title 0) as [g|first] eqn:H4; simpl in H.
  { injection H as ->. apply getitem_index_fault in H4.
    unfold shape_fault. tauto. }
  apply getitem_key_fault in H.
  eapply key_fault_shape; [|exact H]. simpl; tauto.
Qed.

(** ** A parsed response, by its shape *)

Lemma has_title_object (e t : value) :
  has_title e t -> exists fields, e = VDict fields.
Proof. intros (fields & _ & _ & _ & _ & -> & _). exists fields. reflexivity. Qed.

Lemma parsed_reply_fault (json_loads : string -> option value) (reply : Response)
    (response : value) (f : fault) :
  json_loads (text reply) = Some response ->
  titles_of_reply json_loads reply = raise f ->
  shape_fault f.
Proof.
  unfold titles_of_reply, Response_json. intros -> H. simpl in H.
  destruct (getitem_key response "results") as [g|results] eqn:Hr; simpl in H.
  { injection H as ->. apply getitem_key_fault in Hr.
    eapply key_fault_shape; [|exact Hr]. simpl; tauto. }
  destruct (iterate results) as [g|elements] eqn:Hi; simpl in H.
  { injection H as ->. destruct results; try discriminate Hi;
      injection Hi as <-; left; reflexivity. }
  apply comprehension_raise_inv in H. destruct H as (e & _ & He).
  apply book_title_fault in He. exact He.
Qed.

Lemma parsed_reply_titles (json_loads : string -> option value) (reply : Response)
    (response : value) (titles : list value) :
  json_loads (text reply) = Some response ->
  titles_of_reply json_loads reply = ok titles ->
  expected_shape response \/
  exists items,
    response = VDict items /\
    (dict_get "results" items = Some (VDict []) \/
     dict_get "results" items = Some (VStr EmptyString)).
Proof.
  unfold titles_of_reply, Response_json. intros -> H. simpl in H.
  destruct response as [| | | | | |items]; try discriminate H. simpl in H.
  destruct (dict_get "results" items) as [results|] eqn:Hr; [|discriminate H].
  simpl in H.
  destruct (iterate results) as [g|elements] eqn:Hi; [discriminate H|].
  simpl in H. apply comprehension_ok_inv in H.
  assert (Forall2 has_title elements titles) as Hs.
  { eapply Forall2_impl; [exact H|]. intros x y Hxy.
    apply has_title_book_title, Hxy. }
  destruct results as [| | | |s|l|kv]; try discriminate Hi.
  - right. exists items. split; [reflexivity|]. right.
    destruct s as [|c s]; [exact Hr|]. exfalso.
    injection Hi as <-. unfold chars in Hs. simpl in Hs.
    inversion Hs as [|x y xs ys Hx _]; subst.
    apply has_title_object in Hx. destruct Hx as [fields Hx]. discriminate Hx.
  - left. injection Hi as <-. exists items, l, titles. auto.
  - right. exists items. split; [reflexivity|]. left.
    destruct kv as [|[k v] kv]; [exact Hr|]. exfalso.
    injection Hi as <-. simpl in Hs.
    inversion Hs as [|x y xs ys Hx _]; subst.
    apply has_title_object in Hx. destruct Hx as [fields Hx]. discriminate Hx.
Qed.

(** C6, as amended.  The status of the response is not looked at: the
    outcome depends on the response through its body only.  A body that
    is not JSON raises the decoder's fault.  A body that parses but lacks
    the expected shape raises a fault of subscripting or iterating it
    (KeyError for [results] when that key is missing), except that an
    object whose [results] is an empty object or an empty string gives
    the empty list. *)
Theorem reading_list_unparsed_body_raises (json_dumps : value -> string)
    (json_loads : string -> option value) (transport : Request -> result Response)
    (w : World) (reply : Response) :
  transport (query_request json_dumps w) = ok reply ->
  (json_loads (text reply) = None ->
   fst (get_currently_reading json_dumps json_loads transport w)
   = raise JSONDecodeError) /\
  (forall response,
     json_loads (text reply) = Some response ->
     ~ expected_shape response ->
     (forall items,
        response = VDict items ->
        dict_get "results" items <> Some (VDict []) /\
        dict_get "results" items <> Some (VStr EmptyString)) ->
     exists f,
       fst (get_currently_reading json_dumps json_loads transport w) = raise f /\
       shape_fault f) /\
  (forall items,
     json_loads (text reply) = Some (VDict items) ->
     dict_get "results" items = None ->
     fst (get_currently_reading json_dumps json_loads transport w)
     = raise (KeyError (VStr "results"))) /\
  (forall items,
     json_loads (text reply) = Some (VDict items) ->
     dict_get "results" items = Some (VDict []) \/
     dict_get "results" items = Some (VStr EmptyString) ->
     fst (get_currently_reading json_dumps json_loads transport w) = ok []) /\
  (forall transport' reply',
     transport' (query_request json_dumps w) = ok reply' ->
     text reply' = text reply ->
     fst (get_currently_reading json_dumps json_loads transport' w)
     = fst (get_currently_reading json_dumps json_loads transport w)).
Proof.
  intros Ht. rewrite !get_currently_reading_run. simpl. rewrite Ht. simpl.
  split; [|split; [|split; [|split]]].
  - unfold titles_of_reply, Response_json. intros ->. reflexivity.
  - intros response Hj Hshape Hempty.
    destruct (titles_of_reply json_loads reply) as [f|titles] eqn:Hrun.
    + exists f. split; [reflexivity|]. exact (parsed_reply_fault _ _ _ _ Hj Hrun).
    + exfalso.
      destruct (parsed_reply_titles _ _ _ _ Hj Hrun) as [Hs | (items & -> & Hr)].
      * exact (Hshape Hs).
      * destruct (Hempty items eq_refl) as [Hd Hstr].
        destruct Hr as [Hr | Hr]; [exact (Hd Hr) | exact (Hstr Hr)].
  - unfold titles_of_reply, Response_json. intros items -> Hr. simpl.
    rewrite Hr. reflexivity.
  - unfold titles_of_reply, Response_json. intros items -> [Hr | Hr]; simpl;
      rewrite Hr; reflexivity.
  - intros transport' reply' Ht' Hb. rewrite get_currently_reading_run. simpl.
    rewrite Ht'. simpl. unfold titles_of_reply, Response_json. rewrite Hb.
    reflexivity.
Qed.

(** ** Module load *)

Lemma environ_getitem_absent (dotenv environ : gmap string string) (k : string) :
  environ !! k = None -> dotenv !! k = None ->
  environ_getitem (load_dotenv dotenv environ) k = raise (KeyError (VStr k)).
Proof.
  intros He Hd. unfold environ_getitem, load_dotenv.
  rewrite (proj2 (lookup_union_None environ dotenv k) (conj He Hd)).
  reflexivity.
Qed.

(** C8.  When NOTION_API_KEY or NOTION_DATABASE_ID is set neither in the
    process environment nor in the [.env] file, the module body raises
    KeyError for one of the two names; a program that imports the module
    ends with that fault before any of its client code runs, so no
    operation is called and no request is sent. *)
Theorem import_fails_without_configuration (dotenv environ : gmap string string) :
  (environ !! "NOTION_API_KEY" = None /\ dotenv !! "NOTION_API_KEY" = None) \/
  (environ !! "NOTION_DATABASE_ID" = None /\ dotenv !! "NOTION_DATABASE_ID" = None) ->
  exists k,
    (k = "NOTION_API_KEY" \/ k = "NOTION_DATABASE_ID") /\
    import_notion dotenv environ = raise (KeyError (VStr k)) /\
    forall (A : Type) (objs : ref -> GoodReadBook) (client : py A),
      program dotenv environ objs client = (raise (KeyError (VStr k)), []).
Proof.
  intros H.
  assert (exists k, (k = "NOTION_API_KEY" \/ k = "NOTION_DATABASE_ID") /\
                    import_notion dotenv environ = raise (KeyError (VStr k)))
    as (k & Hk & Hi).
  { unfold import_notion.
    destruct (environ_getitem (load_dotenv dotenv environ) "NOTION_API_KEY")
      as [f | api_key] eqn:Hapi.
    - exists "NOTION_API_KEY". split; [left; reflexivity|].
      unfold environ_getitem in Hapi.
      destruct (load_dotenv dotenv environ !! "NOTION_API_KEY"); [discriminate Hapi|].
      injection Hapi as <-. reflexivity.
    - exists "NOTION_DATABASE_ID". split; [right; reflexivity|].
      destruct H as [[He Hd] | [He Hd]].
      + rewrite (environ_getitem_absent _ _ _ He Hd) in Hapi. discriminate Hapi.
      + simpl. rewrite (environ_getitem_absent _ _ _ He Hd). reflexivity. }
  exists k. split; [exact Hk|]. split; [exact Hi|].
  intros A objs client. unfold program. rewrite Hi. reflexivity.
Qed.

(** ** Runs on canned responses *)

Tactic Notation "shape" integer(n) :=
  do n eexists; repeat (split; [reflexivity|]); reflexivity.

Lemma dune_has_title : has_title dune (VStr "Dune").
Proof. unfold has_title. shape 5. Qed.

Lemma untitled_empty_title : empty_title untitled.
Proof. unfold empty_title. shape 3. Qed.

Example seq_index_from_end : seq_index [1; 2; 3] (-1) = Some 3.
Proof. reflexivity. Qed.

Example iterate_dict_keys :
  iterate (VDict [ ("a", VNone); ("b", VInt 1) ]) = ok [ VStr "a"; VStr "b" ].
Proof. reflexivity. Qed.

Example import_with_dotenv :
  import_notion {[ "NOTION_DATABASE_ID" := "db1" ]} {[ "NOTION_API_KEY" := "secret" ]}
  = ok {| NOTION_API_KEY := "secret"; NOTION_DATABASE_ID := "db1" |}.
Proof. reflexivity. Qed.

Example post_book_sample_run :
  let out :=
    post_book_from_goodreads mock_dumps (mock_transport (reply_with 404 error_text))
      0%nat None sample_world in
  fst out = ok (reply_with 404 error_text) /\
  sent (snd out)
  = [ {| method := "POST";
         endpoint := "https://api.notion.com/v1/pages/";
         headers :=
           [ ("Content-Type", "application/json");
             ("Notion-Version", "2022-02-22");
             ("Authorization", "Bearer secret") ];
         data := "{}" |} ].
Proof. split; reflexivity. Qed.

Example post_book_transport_fault :
  fst (post_book_from_goodreads mock_dumps (failing_transport "timeout")
         0%nat (Some true) sample_world)
  = raise (RequestException "timeout").
Proof. reflexivity. Qed.

(** The witness of C2: the responses of the spec's two examples. *)
Lemma reading_list_titles_witness :
  fst (get_currently_reading mock_dumps (mock_loads bodies)
         (mock_transport (reply_with 200 (results_body ("[" +:+ dune_text +:+ "]"))))
         sample_world)
  = ok [ VStr "Dune" ] /\
  fst (get_currently_reading mock_dumps (mock_loads bodies)
         (mock_transport (reply_with 200 (results_body "[]")))
         sample_world)
  = ok [].
Proof.
  split.
  - apply (reading_list_titles mock_dumps (mock_loads bodies)
             (mock_transport (reply_with 200 (results_body ("[" +:+ dune_text +:+ "]"))))
             sample_world
             (reply_with 200 (results_body ("[" +:+ dune_text +:+ "]")))
             [ ("results", VList [ dune ]) ] [ dune ] [ VStr "Dune" ]).
    + reflexivity.
    + vm_compute. reflexivity.
    + reflexivity.
    + constructor; [|constructor]. unfold has_title. shape 5.
  - apply (reading_list_titles mock_dumps (mock_loads bodies)
             (mock_transport (reply_with 200 (results_body "[]")))
             sample_world (reply_with 200 (results_body "[]"))
             [ ("results", VList []) ] [] []).
    + reflexivity.
    + vm_compute. reflexivity.
    + reflexivity.
    + constructor.
Defined.

(** Against C3 as stated: the second result has an empty Name title list,
    yet the fault raised is the KeyError of the first result, not
    IndexError. *)
Lemma reading_list_earlier_fault_first :
  let body := results_body ("[{}, " +:+ untitled_text +:+ "]") in
  mock_loads bodies body = Some (VDict [ ("results", VList [ VDict []; untitled ]) ]) /\
  empty_title untitled /\
  fst (get_currently_reading mock_dumps (mock_loads bodies)
         (mock_transport (reply_with 200 body)) sample_world)
  = raise (KeyError (VStr "properties")) /\
  fst (get_currently_reading mock_dumps (mock_loads bodies)
         (mock_transport (reply_with 200 body)) sample_world)
  <> raise IndexError.
Proof.
  split; [vm_compute; reflexivity|]. split; [exact untitled_empty_title|].
  split; [vm_compute; reflexivity|]. vm_compute. discriminate.
Qed.

Lemma reading_list_empty_title_raises_witness :
  fst (get_currently_reading mock_dumps (mock_loads bodies)
         (mock_transport
            (reply_with 200
               (results_body ("[" +:+ dune_text +:+ ", " +:+ untitled_text +:+ "]"))))
         sample_world)
  = raise IndexError.
Proof.
  refine (proj1 (proj2
            (reading_list_empty_title_raises mock_dumps (mock_loads bodies)
               (mock_transport _) sample_world (reply_with 200 _)
               [ ("results", VList [ dune; untitled ]) ] [ dune ] [] untitled
               _ _ _ _)) _).
  - reflexivity.
  - vm_compute. reflexivity.
  - reflexivity.
  - unfold empty_title. shape 3.
  - constructor; [|constructor]. exists (VStr "Dune"). unfold has_title. shape 5.
Defined.

(** Against C6 as stated: the body is JSON whose [results] is an object,
    not a list of results, yet the call returns a value, the empty list;
    and a body that is a JSON list raises TypeError, which is neither the
    decoder's fault nor a KeyError. *)
Lemma reading_list_odd_shape_returns :
  let body := results_body "{}" in
  mock_loads bodies body = Some (VDict [ ("results", VDict []) ]) /\
  ~ expected_shape (VDict [ ("results", VDict []) ]) /\
  fst (get_currently_reading mock_dumps (mock_loads bodies)
         (mock_transport (reply_with 200 body)) sample_world)
  = ok [] /\
  ~ expected_shape (VList []) /\
  fst (get_currently_reading mock_dumps (mock_loads [ ("[]", VList []) ])
         (mock_transport (reply_with 200 "[]")) sample_world)
  = raise TypeError.
Proof.
  split; [vm_compute; reflexivity|]. split; [|split; [vm_compute; reflexivity|]].
  - intros (items & results & titles & Heq & Hr & _).
    injection Heq as <-. simpl in Hr. discriminate Hr.
  - split; [|vm_compute; reflexivity].
    intros (items & results & titles & Heq & _). discriminate Heq.
Qed.

Lemma reading_list_unparsed_body_raises_witness :
  fst (get_currently_reading mock_dumps (mock_loads bodies)
         (mock_transport (reply_with 401 error_text)) sample_world)
  = raise (KeyError (VStr "results")) /\
  fst (get_currently_reading mock_dumps (mock_loads bodies)
         (mock_transport (reply_with 502 "Bad Gateway")) sample_world)
  = raise JSONDecodeError /\
  (exists f,
     fst (get_currently_reading mock_dumps (mock_loads bodies)
            (mock_transport
               (reply_with 200 (results_body ("[{}, " +:+ untitled_text +:+ "]"))))
            sample_world)
     = raise f /\
     shape_fault f) /\
  fst (get_currently_reading mock_dumps (mock_loads bodies)
         (mock_transport (reply_with 200 (results_body "{}"))) sample_world)
  = ok [].
Proof.
  split; [|split; [|split]].
  - refine (proj1 (proj2 (proj2
              (reading_list_unparsed_body_raises mock_dumps (mock_loads bodies)
                 (mock_transport _) sample_world (reply_with 401 error_text) _)))
              [ ("object", VStr "error"); ("status", VInt 401) ] _ _).
    + reflexivity.
    + vm_compute. reflexivity.
    + reflexivity.
  - refine (proj1
              (reading_list_unparsed_body_raises mock_dumps (mock_loads bodies)
                 (mock_transport _) sample_world (reply_with 502 "Bad Gateway") _) _).
    + reflexivity.
    + vm_compute. reflexivity.
  - refine (proj1 (proj2
              (reading_list_unparsed_body_raises mock_dumps (mock_loads bodies)
                 (mock_transport _) sample_world
                 (reply_with 200 (results_body ("[{}, " +:+ untitled_text +:+ "]")))
                 _))
              (VDict [ ("results", VList [ VDict []; untitled ]) ]) _ _ _).
    + reflexivity.
    + vm_compute. reflexivity.
    + intros (items & results & titles & Heq & Hr & Hs).
      injection Heq as <-. simpl in Hr. injection Hr as <-.
      inversion Hs as [|x t xs ts Hx _]; subst.
      destruct Hx as (fields & props & name_fields & run & rest & Hf & Hp & _).
      injection Hf as <-. simpl in Hp. discriminate Hp.
    + intros items Heq. injection Heq as <-. simpl. split; discriminate.
  - refine (proj1 (proj2 (proj2 (proj2
              (reading_list_unparsed_body_raises mock_dumps (mock_loads bodies)
                 (mock_transport _) sample_world
                 (reply_with 200 (results_body "{}")) _))))
              [ ("results", VDict []) ] _ _).
    + reflexivity.
    + vm_compute. reflexivity.
    + left. reflexivity.
Defined.

Lemma import_fails_without_configuration_witness :
  exists k,
    (k = "NOTION_API_KEY" \/ k = "NOTION_DATABASE_ID") /\
    import_notion ∅ {[ "NOTION_API_KEY" := "secret" ]} = raise (KeyError (VStr k)) /\
    forall (A : Type) (objs : ref -> GoodReadBook) (client : py A),
      program ∅ {[ "NOTION_API_KEY" := "secret" ]} objs client
      = (raise (KeyError (VStr k)), []).
Proof.
  apply (import_fails_without_configuration ∅ {[ "NOTION_API_KEY" := "secret" ]}).
  right. split; reflexivity.
Defined.

(** * Further properties of the module *)

Section ReadingList.

Variable json_dumps : value -> string.
Variable json_loads : string -> option value.
Variable transport : Request -> result Response.

Local Abbreviation get_currently_reading :=
  (get_currently_reading json_dumps json_loads transport).
Local Abbreviation query_request := (query_request json_dumps).
Local Abbreviation titles_of_reply := (titles_of_reply json_loads).
Local Abbreviation Response_json := (Response_json json_loads).

(** ** What a call leaves behind and what it raises *)

(** X1.  Listing the books being read leaves the module globals and all
    objects as they were, whether the call returns or raises. *)
Theorem reading_list_frame (w : World) :
  globals (snd (get_currently_reading w)) = globals w /\
  objects (snd (get_currently_reading w)) = objects w.
Proof. rewrite get_currently_reading_run. split; reflexivity. Qed.

(** X2.  A fault of the transport is raised by the call as it is; the
    response is never looked for. *)
Theorem reading_list_transport_fault (w : World) (f : fault) :
  transport (query_request w) = raise f ->
  fst (get_currently_reading w) = raise f.
Proof.
  intros H. rewrite get_currently_reading_run. simpl. rewrite H. reflexivity.
Qed.

(** X3.  When the call returns, the transport answered with a body that
    parsed to an object with a [results] entry, and the returned values
    are, one for one and in order, the titles of what iterating over
    [results] gives; a non-empty return means [results] was a list. *)
Theorem reading_list_returns_only_titles (w : World) (titles : list value) :
  fst (get_currently_reading w) = ok titles ->
  exists reply items results elements,
    transport (query_request w) = ok reply /\
    json_loads (text reply) = Some (VDict items) /\
    dict_get "results" items = Some results /\
    iterate results = ok elements /\
    Forall2 has_title elements titles /\
    (titles <> [] -> results = VList elements).
Proof.
  rewrite get_currently_reading_run. simpl.
  destruct (transport (query_request w)) as [g|reply] eqn:Ht; [discriminate|].
  simpl. unfold titles_of_reply, Response_json.
  destruct (json_loads (text reply)) as [response|] eqn:Hj; [|discriminate].
  simpl. destruct response as [| | | | | |items]; try discriminate. simpl.
  destruct (dict_get "results" items) as [results|] eqn:Hr; [|discriminate].
  simpl. destruct (iterate results) as [g|elements] eqn:Hi; [discriminate|].
  simpl. intros Hc. apply comprehension_ok_inv in Hc.
  assert (Forall2 has_title elements titles) as Hs.
  { eapply Forall2_impl; [exact Hc|]. intros x y Hxy.
    apply has_title_book_title, Hxy. }
  exists reply, items, results, elements. repeat split; try assumption.
  intros Hne. destruct Hs as [|e t elements titles He Hrest]; [congruence|].
  destruct He as (fields & _ & _ & _ & _ & -> & _).
  destruct results as [| | | |s|l|kv]; try discriminate Hi.
  - unfold iterate, chars in Hi. injection Hi as Hi.
    destruct (list_ascii_of_string s); discriminate Hi.
  - injection Hi as ->. reflexivity.
  - unfold iterate, dict_keys in Hi. injection Hi as Hi.
    destruct kv; discriminate Hi.
Qed.

(** X4.  Once the transport has answered and the body has parsed, the
    only faults the call can raise are those of subscripting and iterating
    the response: TypeError, IndexError, KeyError for index 0 and KeyError
    for one of the five keys results, properties, Name, title, plain_text. *)
Theorem reading_list_faults (w : World) (reply : Response) (response : value)
    (f : fault) :
  transport (query_request w) = ok reply ->
  json_loads (text reply) = Some response ->
  fst (get_currently_reading w) = raise f ->
  f = TypeError \/ f = IndexError \/ f = KeyError (VInt 0) \/
  exists k,
    In k [ "results"; "properties"; "Name"; "title"; "plain_text" ] /\
    f = KeyError (VStr k).
Proof.
  intros Ht Hj. rewrite get_currently_reading_run. simpl. rewrite Ht. simpl.
  intros H. exact (parsed_reply_fault _ _ _ _ Hj H).
Qed.

(** X5.  A body that parses to anything but an object (a list, a string,
    a number, a boolean, null) raises TypeError. *)
Theorem reading_list_not_object (w : World) (reply : Response) (response : value) :
  transport (query_request w) = ok reply ->
  json_loads (text reply) = Some response ->
  (forall items, response <> VDict items) ->
  fst (get_currently_reading w) = raise TypeError.
Proof.
  intros Ht Hj Hn. rewrite get_currently_reading_run. simpl. rewrite Ht. simpl.
  unfold titles_of_reply, Response_json. rewrite Hj. simpl.
  destruct response as [| | | | | |items]; try reflexivity.
  exfalso. apply (Hn items). reflexivity.
Qed.

(** X6.  When [results] is not a list: an empty object and an empty string
    give the empty list, and everything else (a non-empty object, a
    non-empty string, a number, a boolean, null) raises TypeError. *)
Theorem reading_list_results_not_list (w : World) (reply : Response)
    (items : list (string * value)) (results : value) :
  transport (query_request w) = ok reply ->
  json_loads (text reply) = Some (VDict items) ->
  dict_get "results" items = Some results ->
  (forall l, results <> VList l) ->
  fst (get_currently_reading w)
  = match results with
    | VDict [] | VStr EmptyString => ok []
    | _ => raise TypeError
    end.
Proof.
  intros Ht Hj Hr Hn. rewrite get_currently_reading_run. simpl. rewrite Ht. simpl.
  unfold titles_of_reply, Response_json. rewrite Hj. simpl. rewrite Hr. simpl.
  destruct results as [| | | |s|l|kv]; try reflexivity.
  - destruct s; reflexivity.
  - exfalso. apply (Hn l). reflexivity.
  - destruct kv as [|[k v] kv]; reflexivity.
Qed.

(** X7.  The first result that has no title decides the outcome: the call
    raises the fault of reading that result, whatever the results after
    it are. *)
Theorem reading_list_first_fault (w : World) (reply : Response)
    (items : list (string * value)) (before after : list value) (e : value)
    (f : fault) :
  transport (query_request w) = ok reply ->
  json_loads (text reply) = Some (VDict items) ->
  dict_get "results" items = Some (VList (before ++ e :: after)) ->
  Forall (fun x => exists t, has_title x t) before ->
  book_title e = raise f ->
  fst (get_currently_reading w) = raise f.
Proof.
  intros Ht Hj Hr Hb He. rewrite get_currently_reading_run. simpl.
  rewrite Ht. simpl. unfold titles_of_reply, Response_json. rewrite Hj. simpl.
  rewrite Hr. simpl. apply comprehension_first_fault; [|exact He].
  eapply Forall_impl; [exact Hb|]. intros x [t Hx]. exists t.
  apply has_title_book_title, Hx.
Qed.

End ReadingList.

(** ** The page payload *)

(** X8.  The payload determines the database id and every field of the
    book: two calls build the same payload only for the same database and
    books with the same six fields. *)
Theorem page_payload_injective (database_id database_id' : string)
    (book book' : GoodReadBook) :
  page_payload database_id book = page_payload database_id' book' ->
  database_id = database_id' /\ book = book'.
Proof.
  destruct book as [n a i p im u], book' as [n' a' i' p' im' u'].
  unfold page_payload. simpl. intros H.
  injection H as Hd Him Hn Hp Hi Ha Hu. subst.
  assert (i = i') as ->.
  { destruct i, i'; simpl in Hi; congruence. }
  assert (p = p') as ->.
  { destruct p, p'; simpl in Hp; congruence. }
  split; reflexivity.
Qed.

(** X9.  The payload has the two entries parent and properties; parent
    names the configured database; every property is a dict with its type
    tag under [type] and its content under the key the tag names; and no
    property name occurs twice. *)
Theorem page_payload_schema (database_id : string) (book : GoodReadBook) :
  exists top props,
    page_payload database_id book = VDict top /\
    dict_keys top = [ "parent"; "properties" ] /\
    path (VDict top) [ Key "parent"; Key "database_id" ] = ok (VStr database_id) /\
    dict_get "properties" top = Some (VDict props) /\
    Forall (fun entry => type_tagged (snd entry)) props /\
    NoDup (dict_keys props).
Proof.
  eexists. eexists. split; [reflexivity|].
  split; [reflexivity|]. split; [reflexivity|]. split; [reflexivity|]. split.
  - repeat constructor; eexists; eexists; reflexivity.
  - apply NoDup_ListNoDup. cbn.
    repeat (constructor; [cbn; intuition discriminate|]). constructor.
Qed.

(** ** Module load, when it succeeds and what it names when it fails *)

(** X11.  When each of the two variables is set in the process environment
    or in the [.env] file, the module loads, and each global holds the
    value of the process environment when the variable is set there and
    the value of the [.env] file otherwise. *)
Theorem import_reads_environment_first (dotenv environ : gmap string string) :
  is_Some (environ !! "NOTION_API_KEY") \/ is_Some (dotenv !! "NOTION_API_KEY") ->
  is_Some (environ !! "NOTION_DATABASE_ID") \/ is_Some (dotenv !! "NOTION_DATABASE_ID") ->
  exists m,
    import_notion dotenv environ = ok m /\
    Some (NOTION_API_KEY m)
    = match environ !! "NOTION_API_KEY" with
      | Some v => Some v
      | None => dotenv !! "NOTION_API_KEY"
      end /\
    Some (NOTION_DATABASE_ID m)
    = match environ !! "NOTION_DATABASE_ID" with
      | Some v => Some v
      | None => dotenv !! "NOTION_DATABASE_ID"
      end.
Proof.
  intros Hk Hd. unfold import_notion, environ_getitem, load_dotenv.
  rewrite !lookup_union.
  destruct (environ !! "NOTION_API_KEY") as [k|],
    (dotenv !! "NOTION_API_KEY") as [k'|];
    try (destruct Hk as [[? Hk] | [? Hk]]; discriminate Hk);
  destruct (environ !! "NOTION_DATABASE_ID") as [d|],
    (dotenv !! "NOTION_DATABASE_ID") as [d'|];
    try (destruct Hd as [[? Hd] | [? Hd]]; discriminate Hd);
  simpl; eexists; repeat split.
Qed.

(** X12.  The two variables are looked up in the order API key, database
    id: without the API key the KeyError names NOTION_API_KEY, also when
    the database id is missing too; with the API key and without the
    database id it names NOTION_DATABASE_ID. *)
Theorem import_names_first_missing (dotenv environ : gmap string string) :
  (environ !! "NOTION_API_KEY" = None /\ dotenv !! "NOTION_API_KEY" = None ->
   import_notion dotenv environ = raise (KeyError (VStr "NOTION_API_KEY"))) /\
  (is_Some (environ !! "NOTION_API_KEY") \/ is_Some (dotenv !! "NOTION_API_KEY") ->
   environ !! "NOTION_DATABASE_ID" = None /\ dotenv !! "NOTION_DATABASE_ID" = None ->
   import_notion dotenv environ = raise (KeyError (VStr "NOTION_DATABASE_ID"))).
Proof.
  split.
  - intros [He Hd]. unfold import_notion.
    rewrite (environ_getitem_absent _ _ _ He Hd). reflexivity.
  - intros Hk [He Hd]. unfold import_notion.
    rewrite (environ_getitem_absent _ _ _ He Hd).
    unfold environ_getitem, load_dotenv. rewrite lookup_union.
    destruct (environ !! "NOTION_API_KEY") as [k|],
      (dotenv !! "NOTION_API_KEY") as [k'|];
      try (destruct Hk as [[? Hk] | [? Hk]]; discriminate Hk); reflexivity.
Qed.

(** ** Runs of the further properties *)

Lemma reading_list_transport_fault_witness :
  fst (get_currently_reading mock_dumps (mock_loads bodies)
         (failing_transport "timeout") sample_world)
  = raise (RequestException "timeout").
Proof.
  apply (reading_list_transport_fault mock_dumps (mock_loads bodies)
           (failing_transport "timeout") sample_world (RequestException "timeout")).
  reflexivity.
Defined.

Lemma reading_list_returns_only_titles_witness :
  exists reply items results elements,
    mock_transport (reply_with 200 (results_body ("[" +:+ dune_text +:+ "]")))
      (query_request mock_dumps sample_world) = ok reply /\
    mock_loads bodies (text reply) = Some (VDict items) /\
    dict_get "results" items = Some results /\
    iterate results = ok elements /\
    Forall2 has_title elements [ VStr "Dune" ] /\
    ([ VStr "Dune" ] <> [] -> results = VList elements).
Proof.
  apply (reading_list_returns_only_titles mock_dumps (mock_loads bodies)
           (mock_transport (reply_with 200 (results_body ("[" +:+ dune_text +:+ "]"))))
           sample_world [ VStr "Dune" ]).
  vm_compute. reflexivity.
Defined.

Lemma reading_list_faults_witness :
  KeyError (VStr "results") = TypeError \/
  KeyError (VStr "results") = IndexError \/
  KeyError (VStr "results") = KeyError (VInt 0) \/
  exists k,
    In k [ "results"; "properties"; "Name"; "title"; "plain_text" ] /\
    KeyError (VStr "results") = KeyError (VStr k).
Proof.
  apply (reading_list_faults mock_dumps (mock_loads bodies)
           (mock_transport (reply_with 401 error_text)) sample_world
           (reply_with 401 error_text)
           (VDict [ ("object", VStr "error"); ("status", VInt 401) ])
           (KeyError (VStr "results"))).
  - reflexivity.
  - vm_compute. reflexivity.
  - vm_compute. reflexivity.
Defined.

Lemma reading_list_not_object_witness :
  fst (get_currently_reading mock_dumps (mock_loads [ ("[]", VList []) ])
         (mock_transport (reply_with 200 "[]")) sample_world)
  = raise TypeError.
Proof.
  apply (reading_list_not_object mock_dumps (mock_loads [ ("[]", VList []) ])
           (mock_transport (reply_with 200 "[]")) sample_world
           (reply_with 200 "[]") (VList [])).
  - reflexivity.
  - reflexivity.
  - intros items H. discriminate H.
Defined.

Lemma reading_list_results_not_list_witness :
  fst (get_currently_reading mock_dumps (mock_loads bodies)
         (mock_transport (reply_with 200 (results_body "{}"))) sample_world)
  = ok [] /\
  fst (get_currently_reading mock_dumps
         (mock_loads [ ("{}", VDict [ ("results", VDict [ ("next", VNone) ]) ]) ])
         (mock_transport (reply_with 200 "{}")) sample_world)
  = raise TypeError.
Proof.
  split.
  - refine (reading_list_results_not_list mock_dumps (mock_loads bodies)
              (mock_transport _) sample_world (reply_with 200 (results_body "{}"))
              [ ("results", VDict []) ] (VDict []) _ _ _ _).
    + reflexivity.
    + vm_compute. reflexivity.
    + reflexivity.
    + intros l H. discriminate H.
  - refine (reading_list_results_not_list mock_dumps (mock_loads _)
              (mock_transport _) sample_world (reply_with 200 "{}")
              [ ("results", VDict [ ("next", VNone) ]) ]
              (VDict [ ("next", VNone) ]) _ _ _ _).
    + reflexivity.
    + reflexivity.
    + reflexivity.
    + intros l H. discriminate H.
Defined.

Lemma reading_list_first_fault_witness :
  fst (get_currently_reading mock_dumps (mock_loads bodies)
         (mock_transport
            (reply_with 200 (results_body ("[{}, " +:+ untitled_text +:+ "]"))))
         sample_world)
  = raise (KeyError (VStr "properties")).
Proof.
  refine (reading_list_first_fault mock_dumps (mock_loads bodies)
            (mock_transport _) sample_world (reply_with 200 _)
            [ ("results", VList [ VDict []; untitled ]) ] [] [ untitled ] (VDict [])
            (KeyError (VStr "properties")) _ _ _ _ _).
  - reflexivity.
  - vm_compute. reflexivity.
  - reflexivity.
  - constructor.
  - reflexivity.
Defined.

Lemma page_payload_injective_witness :
  "db1" = "db1" /\ sample_book = sample_book.
Proof.
  apply (page_payload_injective "db1" "db1" sample_book sample_book).
  reflexivity.
Defined.

Lemma import_reads_environment_first_witness :
  exists m,
    import_notion
      (<[ "NOTION_DATABASE_ID" := "db1" ]> {[ "NOTION_API_KEY" := "from-file" ]})
      {[ "NOTION_API_KEY" := "secret" ]}
    = ok m /\
    Some (NOTION_API_KEY m) = Some "secret" /\
    Some (NOTION_DATABASE_ID m) = Some "db1".
Proof.
  refine (import_reads_environment_first
            (<[ "NOTION_DATABASE_ID" := "db1" ]> {[ "NOTION_API_KEY" := "from-file" ]})
            {[ "NOTION_API_KEY" := "secret" ]} _ _).
  - left. exists "secret". reflexivity.
  - right. exists "db1". reflexivity.
Defined.

Lemma import_names_first_missing_witness :
  import_notion ∅ ∅ = raise (KeyError (VStr "NOTION_API_KEY")) /\
  import_notion {[ "NOTION_API_KEY" := "from-file" ]} ∅
  = raise (KeyError (VStr "NOTION_DATABASE_ID")).
Proof.
  split.
  - apply (proj1 (import_names_first_missing ∅ ∅)). split; reflexivity.
  - apply (proj2 (import_names_first_missing {[ "NOTION_API_KEY" := "from-file" ]} ∅)).
    + right. exists "from-file". reflexivity.
    + split; reflexivity.
Defined.
